(** * Zerver: the DLL feature ABI and the host-side C bridge

    A shallow embedding of
      - [src/zerver/ipc/dll_abi.h]       (the ABI contract), and
      - [src/zupervisor/dll_c_bridge.c]  (the three bridge wrappers),
    followed by the properties the specification states about them.

    Conventions.
      - A data pointer is its address, a [Z]; [NULL] is address 0.
      - A C [int] is a [Z]; the bridge does no arithmetic on it.
      - A function pointer received by the bridge is [None] when it is
        NULL and [Some code] when it designates code; code is a function
        on the process memory which may also fail to return.
      - The bridge runs in a state-and-error monad: the state is the
        process memory with its two output streams plus a record of the
        calls made through the bridge; the error stands for an execution
        that does not return to the bridge's caller. *)

From Stdlib Require Import ZArith String Ascii List Lia HexadecimalString.
From stdpp Require Import base option list gmap strings pretty.

Open Scope string_scope.
Open Scope Z_scope.

(* ===================================================================== *)
(** ** The ABI contract: [dll_abi.h]                                      *)
(* ===================================================================== *)

Module Abi.

(** [typedef enum { HTTP_METHOD_GET = 0, ... } HttpMethod;] *)
Inductive HttpMethod : Type :=
  | HTTP_METHOD_GET
  | HTTP_METHOD_POST
  | HTTP_METHOD_PUT
  | HTTP_METHOD_PATCH
  | HTTP_METHOD_DELETE
  | HTTP_METHOD_HEAD
  | HTTP_METHOD_OPTIONS.

(** The integer each enumerator is declared with. *)
Definition HttpMethod_value (m : HttpMethod) : Z :=
  match m with
  | HTTP_METHOD_GET => 0
  | HTTP_METHOD_POST => 1
  | HTTP_METHOD_PUT => 2
  | HTTP_METHOD_PATCH => 3
  | HTTP_METHOD_DELETE => 4
  | HTTP_METHOD_HEAD => 5
  | HTTP_METHOD_OPTIONS => 6
  end.

(** The enumerators in declaration order. *)
Definition HttpMethod_members : list HttpMethod :=
  [HTTP_METHOD_GET; HTTP_METHOD_POST; HTTP_METHOD_PUT; HTTP_METHOD_PATCH;
   HTTP_METHOD_DELETE; HTTP_METHOD_HEAD; HTTP_METHOD_OPTIONS].

(** The enumerator an [int method] argument of [AddRouteFn] denotes. *)
Definition HttpMethod_of_int (z : Z) : option HttpMethod :=
  List.find (fun m => HttpMethod_value m =? z) HttpMethod_members.

#[global] Instance HttpMethod_eq_dec : EqDecision HttpMethod.
Proof. solve_decision. Defined.

(** An address.  [void*], [ServerAdapter*] and the function pointers
    stored in the adapter are all addresses to the bridge. *)
Definition ptr : Type := Z.
Definition NULL : ptr := 0.

(** [typedef struct { ... } ServerAdapter;] with its six members in
    declaration order.  The four function pointers are kept as addresses:
    the bridge never calls them, it prints one of them. *)
Record ServerAdapter : Type := mkServerAdapter {
  router : ptr;
  runtime_resources : ptr;
  addRoute : ptr;
  setStatus : ptr;
  setHeader : ptr;
  setBody : ptr
}.

#[global] Instance ServerAdapter_eq_dec : EqDecision ServerAdapter.
Proof. solve_decision. Defined.

(** *** Layout of the aggregate

    [sizeof] and [_Alignof] are computed by the compiler from the member
    list.  The rule is the one of the C ABIs the header targets: members
    in declaration order, each placed at the next multiple of its own
    alignment, the total rounded up to the largest member alignment.  The
    sizes of the two kinds of pointer are the data model of the target. *)

Record DataModel : Type := mkDataModel {
  data_ptr_size : Z;
  data_ptr_align : Z;
  fn_ptr_size : Z;
  fn_ptr_align : Z
}.

(** The two member types that occur in [ServerAdapter]. *)
Inductive MemberType : Type :=
  | TDataPtr   (* void*                                          *)
  | TFnPtr.    (* AddRouteFn, SetStatusFn, SetHeaderFn, SetBodyFn *)

Definition sizeof_member (dm : DataModel) (t : MemberType) : Z :=
  match t with
  | TDataPtr => data_ptr_size dm
  | TFnPtr => fn_ptr_size dm
  end.

Definition alignof_member (dm : DataModel) (t : MemberType) : Z :=
  match t with
  | TDataPtr => data_ptr_align dm
  | TFnPtr => fn_ptr_align dm
  end.

(** The member list of [ServerAdapter], as declared. *)
Definition ServerAdapter_members : list (string * MemberType) :=
  [("router", TDataPtr); ("runtime_resources", TDataPtr);
   ("addRoute", TFnPtr); ("setStatus", TFnPtr);
   ("setHeader", TFnPtr); ("setBody", TFnPtr)].

(** The least multiple of [a] that is not below [n]. *)
Definition align_up (n a : Z) : Z := ((n + a - 1) / a) * a.

(** Offsets of the members, starting from offset [ofs]; the second
    component is the offset just past the last member. *)
Fixpoint place_members (dm : DataModel) (ms : list (string * MemberType))
    (ofs : Z) : list (string * Z) * Z :=
  match ms with
  | [] => ([], ofs)
  | (name, t) :: rest =>
      let at_ := align_up ofs (alignof_member dm t) in
      let '(placed, fin) := place_members dm rest (at_ + sizeof_member dm t) in
      ((name, at_) :: placed, fin)
  end.

Definition alignof_struct (dm : DataModel) (ms : list (string * MemberType)) : Z :=
  fold_right (fun m acc => Z.max (alignof_member dm (snd m)) acc) 1 ms.

Definition sizeof_struct (dm : DataModel) (ms : list (string * MemberType)) : Z :=
  align_up (snd (place_members dm ms 0)) (alignof_struct dm ms).

Definition sizeof_ServerAdapter (dm : DataModel) : Z :=
  sizeof_struct dm ServerAdapter_members.

Definition alignof_ServerAdapter (dm : DataModel) : Z :=
  alignof_struct dm ServerAdapter_members.

Definition offsets_ServerAdapter (dm : DataModel) : list (string * Z) :=
  fst (place_members dm ServerAdapter_members 0).

(** The outcome of translating the header for a target. *)
Inductive Build : Type :=
  | BuildOk
  | BuildError (message : string).

(** [_Static_assert(cond, message);] followed by the rest of the
    translation unit. *)
Definition static_assert (cond : bool) (message : string) (rest : Build) : Build :=
  if cond then rest else BuildError message.

(** The two assertions of [dll_abi.h], in source order. *)
Definition dll_abi_h (dm : DataModel) : Build :=
  static_assert (sizeof_ServerAdapter dm =? 48)
    "ServerAdapter size must be 48 bytes"
    (static_assert (alignof_ServerAdapter dm =? 8)
       "ServerAdapter alignment must be 8 bytes"
       BuildOk).

(** The 64-bit data model the header names (aarch64-apple-darwin), and a
    32-bit one for comparison. *)
Definition LP64 : DataModel := mkDataModel 8 8 8 8.
Definition ILP32 : DataModel := mkDataModel 4 4 4 4.

End Abi.

(* ===================================================================== *)
(** ** The process the bridge runs in                                     *)
(* ===================================================================== *)

Module Machine.
Import Abi.

(** What lives at an address: an adapter aggregate, a NUL-terminated
    character array (by its content), or an [int] object (plugins keep
    counters and flags in those). *)
Inductive Object : Type :=
  | ObjAdapter (sa : ServerAdapter)
  | ObjString (text : string)
  | ObjInt (n : Z).

(** Process memory together with the two standard streams.  Host and
    plugin share all of it: the plugin runs in the host's address space. *)
Record World : Type := mkWorld {
  heap : gmap Z Object;
  stdout : string;
  stderr : string
}.

(** A [const char*] value: null, the address of a string literal (static
    storage, known by its content), or an address in [heap]. *)
Inductive CharPtr : Type :=
  | CharNull
  | CharLiteral (text : string)
  | CharAt (p : ptr).

#[global] Instance CharPtr_eq_dec : EqDecision CharPtr.
Proof. solve_decision. Defined.

(** The characters a [const char*] designates, when it designates any. *)
Definition read_string (w : World) (v : CharPtr) : option string :=
  match v with
  | CharNull => None
  | CharLiteral text => Some text
  | CharAt p =>
      match heap w !! p with
      | Some (ObjString text) => Some text
      | _ => None
      end
  end.

(** The aggregate a [ServerAdapter*] designates, when it designates one. *)
Definition read_adapter (w : World) (a : ptr) : option ServerAdapter :=
  match heap w !! a with
  | Some (ObjAdapter sa) => Some sa
  | _ => None
  end.

(** The code behind the three exported entry points.  Each runs on the
    whole process memory; [None] is an execution that never returns to
    its caller (a crash, a hang). *)
Definition InitCode : Type := ptr -> World -> option (Z * World).
Definition ShutdownCode : Type := World -> option World.
Definition VersionCode : Type := World -> option (CharPtr * World).

(** [FeatureInitFn], [FeatureShutdownFn], [FeatureVersionFn]: a function
    pointer is null or designates code. *)
Definition FeatureInitFn : Type := option InitCode.
Definition FeatureShutdownFn : Type := option ShutdownCode.
Definition FeatureVersionFn : Type := option VersionCode.

(** One call made through a function pointer, with its argument. *)
Inductive Call : Type :=
  | CallInit (server : ptr)
  | CallShutdown
  | CallVersion.

#[global] Instance Call_eq_dec : EqDecision Call.
Proof. solve_decision. Defined.

(** The state the bridge threads: the world, and the calls made so far
    (a record kept beside the program, invisible to the plugin). *)
Record State : Type := mkState {
  world : World;
  calls : list Call
}.

(** *** The monad *)

Definition M (A : Type) : Type := State -> option (A * State).

Definition ret {A : Type} (a : A) : M A := fun s => Some (a, s).

Definition bind {A B : Type} (m : M A) (k : A -> M B) : M B :=
  fun s =>
    match m s with
    | Some (a, s') => k a s'
    | None => None
    end.

Declare Scope bridge_scope.
Delimit Scope bridge_scope with bridge.
Notation "'let*' x ':=' m 'in' k" := (bind m (fun x => k))
  (at level 10, x name, m at level 100, k at level 200) : bridge_scope.
Notation "m ';;;' k" := (bind m (fun _ => k))
  (at level 100, k at level 200, right associativity) : bridge_scope.

(** *** [stdio.h] *)

Inductive Stream : Type := Stdout | Stderr.

Definition write (st : Stream) (text : string) (w : World) : World :=
  match st with
  | Stdout => mkWorld (heap w) (stdout w ++ text) (stderr w)
  | Stderr => mkWorld (heap w) (stdout w) (stderr w ++ text)
  end.

(** The line feed a C literal writes as backslash-n. *)
Definition LF : string := String (ascii_of_nat 10) "".

(** A C string literal as the compiler reads it: the two characters
    backslash, n stand for one line feed.  (No other escape occurs in the
    bridge.) *)
Fixpoint c_literal (src : string) : string :=
  match src with
  | "" => ""
  | String c rest =>
      match rest with
      | String d rest' =>
          if (Ascii.eqb c "\" && Ascii.eqb d "n")%bool
          then LF ++ c_literal rest'
          else String c (c_literal rest)
      | "" => String c ""
      end
  end.

(** A variadic argument of [printf]. *)
Inductive Arg : Type :=
  | ArgP (p : ptr)        (* for %p *)
  | ArgD (n : Z)          (* for %d *)
  | ArgS (v : CharPtr).   (* for %s *)

(** [%p]: the address in hexadecimal behind [0x]. *)
Definition fmt_p (p : ptr) : string :=
  "0x" ++ HexadecimalString.NilZero.string_of_uint (N.to_hex_uint (Z.to_N p)).

(** [%d]: signed decimal. *)
Definition fmt_d (n : Z) : string := pretty n.

(** [%s]: the characters up to the terminator.  For a null argument the
    C libraries this program is built against write the text [(null)];
    an address that holds no character array is undefined behaviour. *)
Definition fmt_s (w : World) (v : CharPtr) : option string :=
  match v with
  | CharNull => Some "(null)"
  | _ => read_string w v
  end.

(** One conversion specification applied to one argument. *)
Definition convert (w : World) (spec : ascii) (a : Arg) : option string :=
  match a with
  | ArgP p => if Ascii.eqb spec "p" then Some (fmt_p p) else None
  | ArgD n => if Ascii.eqb spec "d" then Some (fmt_d n) else None
  | ArgS v => if Ascii.eqb spec "s" then fmt_s w v else None
  end.

(** The text a format produces from its arguments; [None] when a
    conversion has no matching argument or is undefined on it. *)
Fixpoint format (w : World) (fmt : string) (args : list Arg) : option string :=
  match fmt with
  | "" => Some ""
  | String c rest =>
      if Ascii.eqb c "%" then
        match rest, args with
        | String spec rest', a :: args' =>
            match convert w spec a, format w rest' args' with
            | Some txt, Some more => Some (txt ++ more)
            | _, _ => None
            end
        | _, _ => None
        end
      else
        match format w rest args with
        | Some more => Some (String c more)
        | None => None
        end
  end.

(** Whether a format holds no conversion specification at all. *)
Fixpoint plain (fmt : string) : bool :=
  match fmt with
  | "" => true
  | String c rest => negb (Ascii.eqb c "%") && plain rest
  end.

(** [fprintf(stream, fmt, args...)]; the [int] it returns is ignored by
    every caller in the bridge. *)
Definition fprintf (st : Stream) (fmt : string) (args : list Arg) : M unit :=
  fun s =>
    match format (world s) (c_literal fmt) args with
    | Some text => Some (tt, mkState (write st text (world s)) (calls s))
    | None => None
    end.

(** [printf(fmt, args...)] *)
Definition printf (fmt : string) (args : list Arg) : M unit :=
  fprintf Stdout fmt args.

(** *** Memory reads and indirect calls *)

(** [adapter->member]: undefined behaviour (nothing is returned) unless
    [adapter] designates an aggregate. *)
Definition load_member (adapter : ptr) (member : ServerAdapter -> ptr) : M ptr :=
  fun s =>
    match read_adapter (world s) adapter with
    | Some sa => Some (member sa, s)
    | None => None
    end.

(** [init_fn(adapter)] *)
Definition call_init (code : InitCode) (adapter : ptr) : M Z :=
  fun s =>
    match code adapter (world s) with
    | Some (result, w') => Some (result, mkState w' (calls s ++ [CallInit adapter]))
    | None => None
    end.

(** [shutdown_fn()] *)
Definition call_shutdown (code : ShutdownCode) : M unit :=
  fun s =>
    match code (world s) with
    | Some w' => Some (tt, mkState w' (calls s ++ [CallShutdown]))
    | None => None
    end.

(** [version_fn()] *)
Definition call_version (code : VersionCode) : M CharPtr :=
  fun s =>
    match code (world s) with
    | Some (v, w') => Some (v, mkState w' (calls s ++ [CallVersion]))
    | None => None
    end.

End Machine.

(* ===================================================================== *)
(** ** The bridge: [dll_c_bridge.c]                                       *)
(* ===================================================================== *)

Module Bridge.
Import Abi Machine.
Open Scope bridge_scope.

(** [int dll_bridge_call_init(FeatureInitFn init_fn, ServerAdapter* adapter)] *)
Definition dll_bridge_call_init (init_fn : FeatureInitFn) (adapter : ptr) : M Z :=
  match init_fn with
  | None =>
      fprintf Stderr "[dll_c_bridge] Error: init_fn is NULL\n" [] ;;;
      ret (-1)
  | Some init_code =>
      if decide (adapter = NULL) then
        fprintf Stderr "[dll_c_bridge] Error: adapter is NULL\n" [] ;;;
        ret (-1)
      else
        printf "[dll_c_bridge] Calling featureInit through C bridge\n" [] ;;;
        let* r := load_member adapter router in
        printf "[dll_c_bridge] adapter->router = %p\n" [ArgP r] ;;;
        let* f := load_member adapter addRoute in
        printf "[dll_c_bridge] adapter->addRoute = %p\n" [ArgP f] ;;;
        let* result := call_init init_code adapter in
        printf "[dll_c_bridge] featureInit returned: %d\n" [ArgD result] ;;;
        ret result
  end.

(** [void dll_bridge_call_shutdown(FeatureShutdownFn shutdown_fn)] *)
Definition dll_bridge_call_shutdown (shutdown_fn : FeatureShutdownFn) : M unit :=
  match shutdown_fn with
  | None =>
      fprintf Stderr "[dll_c_bridge] Error: shutdown_fn is NULL\n" [] ;;;
      ret tt
  | Some shutdown_code =>
      printf "[dll_c_bridge] Calling featureShutdown through C bridge\n" [] ;;;
      call_shutdown shutdown_code
  end.

(** [const char* dll_bridge_call_version(FeatureVersionFn version_fn)] *)
Definition dll_bridge_call_version (version_fn : FeatureVersionFn) : M CharPtr :=
  match version_fn with
  | None =>
      fprintf Stderr "[dll_c_bridge] Error: version_fn is NULL\n" [] ;;;
      ret (CharLiteral "unknown")
  | Some version_code =>
      printf "[dll_c_bridge] Calling featureVersion through C bridge\n" [] ;;;
      let* version := call_version version_code in
      printf "[dll_c_bridge] featureVersion returned: %s\n" [ArgS version] ;;;
      ret version
  end.

End Bridge.

(* ===================================================================== *)
(** ** The text of the diagnostic trace                                   *)
(* ===================================================================== *)

Module Trace.
Import Abi Machine.

Definition init_fn_null_text : string :=
  "[dll_c_bridge] Error: init_fn is NULL" ++ LF.

Definition adapter_null_text : string :=
  "[dll_c_bridge] Error: adapter is NULL" ++ LF.

(** What [dll_bridge_call_init] has printed when it enters the plugin. *)
Definition init_enter_text (sa : ServerAdapter) : string :=
  "[dll_c_bridge] Calling featureInit through C bridge" ++ LF ++
  "[dll_c_bridge] adapter->router = " ++ fmt_p (router sa) ++ LF ++
  "[dll_c_bridge] adapter->addRoute = " ++ fmt_p (addRoute sa) ++ LF.

Definition init_leave_text (result : Z) : string :=
  "[dll_c_bridge] featureInit returned: " ++ fmt_d result ++ LF.

Definition shutdown_null_text : string :=
  "[dll_c_bridge] Error: shutdown_fn is NULL" ++ LF.

Definition shutdown_enter_text : string :=
  "[dll_c_bridge] Calling featureShutdown through C bridge" ++ LF.

Definition version_null_text : string :=
  "[dll_c_bridge] Error: version_fn is NULL" ++ LF.

Definition version_enter_text : string :=
  "[dll_c_bridge] Calling featureVersion through C bridge" ++ LF.

Definition version_leave_text (shown : string) : string :=
  "[dll_c_bridge] featureVersion returned: " ++ shown ++ LF.

End Trace.

(* ===================================================================== *)
(** ** Test doubles                                                       *)
(* ===================================================================== *)

(** Stub plugins in the manner of the bridge's unit tests: each entry
    point bumps a call counter that lives in plugin memory. *)
Module Stubs.
Import Abi Machine.

Definition adapter_addr : ptr := 4096.
Definition counter_addr : ptr := 8192.
Definition version_addr : ptr := 12288.

Definition the_adapter : ServerAdapter :=
  mkServerAdapter 20480 24576 28672 28688 28704 28720.

(** A world with one adapter, a zeroed call counter and the plugin's
    version string; nothing printed yet. *)
Definition world0 : World :=
  mkWorld
    (<[adapter_addr := ObjAdapter the_adapter]>
       (<[counter_addr := ObjInt 0]>
          (<[version_addr := ObjString "1.4.2"]> ∅)))
    "" "".

Definition state0 : State := mkState world0 [].

(** [counter++], undefined when there is no counter. *)
Definition bump_counter (w : World) : option World :=
  match heap w !! counter_addr with
  | Some (ObjInt n) =>
      Some (mkWorld (<[counter_addr := ObjInt (n + 1)]> (heap w)) (stdout w) (stderr w))
  | _ => None
  end.

Definition read_counter (w : World) : option Z :=
  match heap w !! counter_addr with
  | Some (ObjInt n) => Some n
  | _ => None
  end.

(** [int featureInit(ServerAdapter* server) { counter++; return code; }] *)
Definition stub_init (code : Z) : InitCode :=
  fun _ w =>
    match bump_counter w with
    | Some w' => Some (code, w')
    | None => None
    end.

(** [void featureShutdown(void) { counter++; }] *)
Definition stub_shutdown : ShutdownCode := bump_counter.

(** [const char* featureVersion(void) { counter++; return version; }]
    for a [version] kept in plugin memory. *)
Definition stub_version : VersionCode :=
  fun w =>
    match bump_counter w with
    | Some w' => Some (CharAt version_addr, w')
    | None => None
    end.

(** [const char* featureVersion(void) { return NULL; }] *)
Definition stub_version_null : VersionCode :=
  fun w => Some (CharNull, w).

(** What the logging stubs print. *)
Definition plugin_hello : string := "[plugin] hello" ++ LF.
Definition plugin_bye : string := "[plugin] bye" ++ LF.

(** [int featureInit(ServerAdapter* server) { puts("[plugin] hello"); return code; }] *)
Definition stub_init_logging (code : Z) : InitCode :=
  fun _ w => Some (code, write Stdout plugin_hello w).

(** [void featureShutdown(void) { puts("[plugin] bye"); }] *)
Definition stub_shutdown_logging : ShutdownCode :=
  fun w => Some (write Stdout plugin_bye w).


End Stubs.

(* ===================================================================== *)
(** ** Properties of plugin code the statements below refer to           *)
(* ===================================================================== *)

Module Contract.
Import Abi Machine Bridge Trace.

(** The init code never changes the aggregate [adapter] designates:
    whenever it returns, the six members read as they did on entry. *)
Definition leaves_adapter_unchanged (code : InitCode) (adapter : ptr) : Prop :=
  forall (w : World) (result : Z) (w' : World),
    code adapter w = Some (result, w') ->
    read_adapter w' adapter = read_adapter w adapter.

(** Plugin code that, whenever it returns, has written to no object in
    memory (it may have printed). *)
Definition init_leaves_heap (code : InitCode) : Prop :=
  forall (a : ptr) (w : World) (result : Z) (w' : World),
    code a w = Some (result, w') -> heap w' = heap w.

Definition shutdown_leaves_heap (code : ShutdownCode) : Prop :=
  forall (w w' : World), code w = Some w' -> heap w' = heap w.

Definition version_leaves_heap (code : VersionCode) : Prop :=
  forall (w : World) (v : CharPtr) (w' : World),
    code w = Some (v, w') -> heap w' = heap w.

(** A target whose data and function pointers all have size [p] and are
    aligned to their size. *)
Definition natural_pointers (dm : DataModel) (p : Z) : Prop :=
  data_ptr_size dm = p /\ data_ptr_align dm = p /\
  fn_ptr_size dm = p /\ fn_ptr_align dm = p.

(** Init code that, whenever it returns, has appended [out] to the
    standard output and nothing to the standard error. *)
Definition init_prints (code : InitCode) (out : string) : Prop :=
  forall (a : ptr) (w : World) (result : Z) (w' : World),
    code a w = Some (result, w') ->
    stdout w' = stdout w ++ out /\ stderr w' = stderr w.

(** How a run of [dll_bridge_call_init] that returns can have gone. *)
Inductive InitRun (init_fn : FeatureInitFn) (adapter : ptr) (s : State)
    (result : Z) (s' : State) : Prop :=
  | InitRunNoFn :
      init_fn = None ->
      result = -1 ->
      s' = mkState (write Stderr init_fn_null_text (world s)) (calls s) ->
      InitRun init_fn adapter s result s'
  | InitRunNoAdapter (code : InitCode) :
      init_fn = Some code ->
      adapter = NULL ->
      result = -1 ->
      s' = mkState (write Stderr adapter_null_text (world s)) (calls s) ->
      InitRun init_fn adapter s result s'
  | InitRunCalled (code : InitCode) (sa : ServerAdapter) (w' : World) :
      init_fn = Some code ->
      adapter <> NULL ->
      read_adapter (world s) adapter = Some sa ->
      code adapter (write Stdout (init_enter_text sa) (world s)) = Some (result, w') ->
      s' = mkState (write Stdout (init_leave_text result) w')
                   (calls s ++ [CallInit adapter]) ->
      InitRun init_fn adapter s result s'.

(** How a run of [dll_bridge_call_shutdown] that returns can have gone. *)
Inductive ShutdownRun (shutdown_fn : FeatureShutdownFn) (s s' : State) : Prop :=
  | ShutdownRunNoFn :
      shutdown_fn = None ->
      s' = mkState (write Stderr shutdown_null_text (world s)) (calls s) ->
      ShutdownRun shutdown_fn s s'
  | ShutdownRunCalled (code : ShutdownCode) (w' : World) :
      shutdown_fn = Some code ->
      code (write Stdout shutdown_enter_text (world s)) = Some w' ->
      s' = mkState w' (calls s ++ [CallShutdown]) ->
      ShutdownRun shutdown_fn s s'.

(** How a run of [dll_bridge_call_version] that returns can have gone. *)
Inductive VersionRun (version_fn : FeatureVersionFn) (s : State)
    (v : CharPtr) (s' : State) : Prop :=
  | VersionRunNoFn :
      version_fn = None ->
      v = CharLiteral "unknown" ->
      s' = mkState (write Stderr version_null_text (world s)) (calls s) ->
      VersionRun version_fn s v s'
  | VersionRunCalled (code : VersionCode) (w' : World) (shown : string) :
      version_fn = Some code ->
      code (write Stdout version_enter_text (world s)) = Some (v, w') ->
      fmt_s w' v = Some shown ->
      s' = mkState (write Stdout (version_leave_text shown) w')
                   (calls s ++ [CallVersion]) ->
      VersionRun version_fn s v s'.

End Contract.

(* ===================================================================== *)
(** ** Basic facts about the machine                                      *)
(* ===================================================================== *)

Module MachineFacts.
Import Abi Machine.

Lemma append_assoc (a b c : string) : (a ++ b) ++ c = a ++ (b ++ c).
Proof.
  induction a as [|ch a IH].
  - reflexivity.
  - change (String ch ((a ++ b) ++ c) = String ch (a ++ (b ++ c))).
    now rewrite IH.
Qed.

Lemma heap_write (st : Stream) (text : string) (w : World) :
  heap (write st text w) = heap w.
Proof. now destruct st. Qed.

Lemma write_write (st : Stream) (a b : string) (w : World) :
  write st b (write st a w) = write st (a ++ b) w.
Proof. destruct st; unfold write; cbn [heap stdout stderr]; now rewrite append_assoc. Qed.

Lemma read_adapter_write (st : Stream) (text : string) (w : World) (a : ptr) :
  read_adapter (write st text w) a = read_adapter w a.
Proof. unfold read_adapter. now rewrite heap_write. Qed.

Lemma read_string_write (st : Stream) (text : string) (w : World) (v : CharPtr) :
  read_string (write st text w) v = read_string w v.
Proof. destruct v; simpl; try reflexivity. now rewrite heap_write. Qed.

(** A format prefix without conversion is copied as it is. *)
Lemma format_plain_prefix (w : World) (pre rest : string) (args : list Arg) :
  plain pre = true ->
  format w (pre ++ rest) args =
  option_map (fun more => pre ++ more) (format w rest args).
Proof.
  induction pre as [|c pre IH]; intros Hplain.
  - change ("" ++ rest) with rest.
    destruct (format w rest args); reflexivity.
  - change (String c pre ++ rest) with (String c (pre ++ rest)).
    cbn [plain] in Hplain. apply andb_true_iff in Hplain as [Hc Hpre].
    cbn [format]. destruct (Ascii.eqb c "%"); [discriminate|].
    rewrite (IH Hpre). destruct (format w rest args); reflexivity.
Qed.

Lemma format_plain (w : World) (fmt : string) :
  plain fmt = true -> format w fmt [] = Some fmt.
Proof.
  induction fmt as [|c fmt IH]; intros Hplain.
  - reflexivity.
  - cbn [plain] in Hplain. apply andb_true_iff in Hplain as [Hc Hfmt].
    cbn [format]. destruct (Ascii.eqb c "%"); [discriminate|].
    now rewrite (IH Hfmt).
Qed.

Lemma fprintf_plain (st : Stream) (fmt : string) (s : State) :
  plain (c_literal fmt) = true ->
  fprintf st fmt [] s =
  Some (tt, mkState (write st (c_literal fmt) (world s)) (calls s)).
Proof. intros H. unfold fprintf. now rewrite (format_plain _ _ H). Qed.

(** Each [printf] of the bridge, as the text it appends. *)
Lemma printf_router (p : ptr) (s : State) :
  printf "[dll_c_bridge] adapter->router = %p\n" [ArgP p] s =
  Some (tt, mkState (write Stdout ("[dll_c_bridge] adapter->router = " ++ fmt_p p ++ LF)
                       (world s)) (calls s)).
Proof. reflexivity. Qed.

Lemma printf_addRoute (p : ptr) (s : State) :
  printf "[dll_c_bridge] adapter->addRoute = %p\n" [ArgP p] s =
  Some (tt, mkState (write Stdout ("[dll_c_bridge] adapter->addRoute = " ++ fmt_p p ++ LF)
                       (world s)) (calls s)).
Proof. reflexivity. Qed.

Lemma printf_returned (n : Z) (s : State) :
  printf "[dll_c_bridge] featureInit returned: %d\n" [ArgD n] s =
  Some (tt, mkState (write Stdout (Trace.init_leave_text n) (world s)) (calls s)).
Proof. reflexivity. Qed.

Lemma format_version (w : World) (v : CharPtr) :
  format w (c_literal "[dll_c_bridge] featureVersion returned: %s\n") [ArgS v] =
  option_map Trace.version_leave_text (fmt_s w v).
Proof.
  change (c_literal "[dll_c_bridge] featureVersion returned: %s\n")
    with ("[dll_c_bridge] featureVersion returned: " ++ String "%" (String "s" LF)).
  rewrite format_plain_prefix by reflexivity.
  change (format w (String "%" (String "s" LF)) [ArgS v])
    with (match fmt_s w v, format w LF [] with
          | Some txt, Some more => Some (txt ++ more)
          | _, _ => None
          end).
  destruct (fmt_s w v); reflexivity.
Qed.

Lemma printf_version (v : CharPtr) (shown : string) (s : State) :
  fmt_s (world s) v = Some shown ->
  printf "[dll_c_bridge] featureVersion returned: %s\n" [ArgS v] s =
  Some (tt, mkState (write Stdout (Trace.version_leave_text shown) (world s)) (calls s)).
Proof.
  intros H. unfold printf, fprintf. now rewrite format_version, H.
Qed.

Lemma printf_version_undefined (v : CharPtr) (s : State) :
  fmt_s (world s) v = None ->
  printf "[dll_c_bridge] featureVersion returned: %s\n" [ArgS v] s = None.
Proof.
  intros H. unfold printf, fprintf. now rewrite format_version, H.
Qed.

End MachineFacts.

(* ===================================================================== *)
(** ** What each wrapper does, case by case                               *)
(* ===================================================================== *)

Module BridgeFacts.
Import Abi Machine Bridge Trace MachineFacts.

(** One step of a sequence whose first action is known. *)
Lemma bind_known {A B : Type} (m : M A) (k : A -> M B) (s s' : State) (a : A) :
  m s = Some (a, s') -> bind m k s = k a s'.
Proof. intros H. unfold bind. now rewrite H. Qed.

Lemma bind_undefined {A B : Type} (m : M A) (k : A -> M B) (s : State) :
  m s = None -> bind m k s = None.
Proof. intros H. unfold bind. now rewrite H. Qed.

Lemma load_member_known (adapter : ptr) (member : ServerAdapter -> ptr)
    (sa : ServerAdapter) (s : State) :
  read_adapter (world s) adapter = Some sa ->
  load_member adapter member s = Some (member sa, s).
Proof. intros H. unfold load_member. now rewrite H. Qed.

Ltac bridge_step lemma :=
  erewrite bind_known by (apply lemma; try reflexivity; eassumption);
  cbn [world calls].

(** *** [dll_bridge_call_init] *)

Lemma call_init_null_fn (adapter : ptr) (s : State) :
  dll_bridge_call_init None adapter s =
  Some (-1, mkState (write Stderr init_fn_null_text (world s)) (calls s)).
Proof.
  unfold dll_bridge_call_init.
  bridge_step fprintf_plain. reflexivity.
Qed.

Lemma call_init_null_adapter (code : InitCode) (s : State) :
  dll_bridge_call_init (Some code) NULL s =
  Some (-1, mkState (write Stderr adapter_null_text (world s)) (calls s)).
Proof.
  unfold dll_bridge_call_init.
  destruct (decide (NULL = NULL)) as [_|Hne]; [|contradiction].
  bridge_step fprintf_plain. reflexivity.
Qed.

Lemma call_init_run (code : InitCode) (adapter : ptr) (sa : ServerAdapter) (s : State) :
  adapter <> NULL ->
  read_adapter (world s) adapter = Some sa ->
  dll_bridge_call_init (Some code) adapter s =
  match code adapter (write Stdout (init_enter_text sa) (world s)) with
  | Some (result, w') =>
      Some (result, mkState (write Stdout (init_leave_text result) w')
                      (calls s ++ [CallInit adapter]))
  | None => None
  end.
Proof.
  intros Hnn Hsa. unfold dll_bridge_call_init.
  destruct (decide (adapter = NULL)) as [E|_]; [contradiction|].
  bridge_step fprintf_plain.
  erewrite bind_known
    by (apply load_member_known; cbn [world]; rewrite read_adapter_write; exact Hsa).
  bridge_step printf_router.
  erewrite bind_known
    by (apply load_member_known; cbn [world]; rewrite !read_adapter_write; exact Hsa).
  bridge_step printf_addRoute.
  rewrite !write_write, !append_assoc.
  change (c_literal "[dll_c_bridge] Calling featureInit through C bridge\n" ++
          "[dll_c_bridge] adapter->router = " ++ fmt_p (router sa) ++ LF ++
          "[dll_c_bridge] adapter->addRoute = " ++ fmt_p (addRoute sa) ++ LF)
    with (init_enter_text sa).
  unfold bind, call_init. cbn [world calls].
  destruct (code adapter (write Stdout (init_enter_text sa) (world s)))
    as [[result w']|]; [|reflexivity].
  rewrite printf_returned. reflexivity.
Qed.

Lemma call_init_dangling (code : InitCode) (adapter : ptr) (s : State) :
  adapter <> NULL ->
  read_adapter (world s) adapter = None ->
  dll_bridge_call_init (Some code) adapter s = None.
Proof.
  intros Hnn Hsa. unfold dll_bridge_call_init.
  destruct (decide (adapter = NULL)) as [E|_]; [contradiction|].
  bridge_step fprintf_plain.
  apply bind_undefined. unfold load_member. cbn [world].
  now rewrite read_adapter_write, Hsa.
Qed.

(** *** [dll_bridge_call_shutdown] *)

Lemma call_shutdown_null (s : State) :
  dll_bridge_call_shutdown None s =
  Some (tt, mkState (write Stderr shutdown_null_text (world s)) (calls s)).
Proof.
  unfold dll_bridge_call_shutdown.
  bridge_step fprintf_plain. reflexivity.
Qed.

Lemma call_shutdown_run (code : ShutdownCode) (s : State) :
  dll_bridge_call_shutdown (Some code) s =
  match code (write Stdout shutdown_enter_text (world s)) with
  | Some w' => Some (tt, mkState w' (calls s ++ [CallShutdown]))
  | None => None
  end.
Proof.
  unfold dll_bridge_call_shutdown.
  bridge_step fprintf_plain.
  unfold call_shutdown. cbn [world calls]. reflexivity.
Qed.

(** *** [dll_bridge_call_version] *)

Lemma call_version_null (s : State) :
  dll_bridge_call_version None s =
  Some (CharLiteral "unknown",
        mkState (write Stderr version_null_text (world s)) (calls s)).
Proof.
  unfold dll_bridge_call_version.
  bridge_step fprintf_plain. reflexivity.
Qed.

Lemma call_version_run (code : VersionCode) (s : State) :
  dll_bridge_call_version (Some code) s =
  match code (write Stdout version_enter_text (world s)) with
  | Some (v, w') =>
      match fmt_s w' v with
      | Some shown =>
          Some (v, mkState (write Stdout (version_leave_text shown) w')
                     (calls s ++ [CallVersion]))
      | None => None
      end
  | None => None
  end.
Proof.
  unfold dll_bridge_call_version.
  bridge_step fprintf_plain.
  change (c_literal "[dll_c_bridge] Calling featureVersion through C bridge\n")
    with version_enter_text.
  unfold bind, call_version. cbn [world calls].
  destruct (code (write Stdout version_enter_text (world s))) as [[v w']|];
    [|reflexivity].
  destruct (fmt_s w' v) as [shown|] eqn:Hshown.
  - now rewrite (printf_version v shown (mkState w' _) Hshown).
  - now rewrite (printf_version_undefined v (mkState w' _) Hshown).
Qed.

End BridgeFacts.

(* ===================================================================== *)
(** ** Statements about the ABI contract                                  *)
(* ===================================================================== *)

Module AbiSpec.
Import Abi.

Lemma HttpMethod_of_int_value (m : HttpMethod) :
  HttpMethod_of_int (HttpMethod_value m) = Some m.
Proof. destruct m; reflexivity. Qed.

Lemma HttpMethod_value_inj (m n : HttpMethod) :
  HttpMethod_value m = HttpMethod_value n -> m = n.
Proof.
  intros H. apply (f_equal HttpMethod_of_int) in H.
  rewrite !HttpMethod_of_int_value in H. now injection H.
Qed.

(** C6.  [HttpMethod] has exactly the seven members GET, POST, PUT,
    PATCH, DELETE, HEAD and OPTIONS, declared with the integers 0, 1, 2,
    3, 4, 5 and 6 in that order: each enumerator has its literal value,
    every value of the type is one of the seven listed, and the seven are
    pairwise distinct. *)
Theorem HttpMethod_literal_values :
  HttpMethod_value HTTP_METHOD_GET = 0 /\
  HttpMethod_value HTTP_METHOD_POST = 1 /\
  HttpMethod_value HTTP_METHOD_PUT = 2 /\
  HttpMethod_value HTTP_METHOD_PATCH = 3 /\
  HttpMethod_value HTTP_METHOD_DELETE = 4 /\
  HttpMethod_value HTTP_METHOD_HEAD = 5 /\
  HttpMethod_value HTTP_METHOD_OPTIONS = 6 /\
  (forall m : HttpMethod, In m HttpMethod_members) /\
  length HttpMethod_members = 7%nat /\
  NoDup HttpMethod_members.
Proof.
  repeat split.
  - intros m. destruct m; simpl; tauto.
  - unfold HttpMethod_members.
    repeat (apply NoDup_cons_2;
            [rewrite ?elem_of_cons, elem_of_nil; intuition discriminate|]).
    apply NoDup_nil_2.
Qed.

(** C7.  On a 64-bit target (data and function pointers of 8 bytes,
    aligned to 8) the [ServerAdapter] aggregate occupies 48 bytes at
    8-byte alignment, with its six members at offsets 0, 8, ..., 40, and
    the header's two static assertions pass.  On any target the header
    builds exactly when the size is 48 and the alignment 8: a mismatch
    stops the build with the assertion's message. *)
Theorem ServerAdapter_layout_frozen :
  (forall dm : DataModel,
     data_ptr_size dm = 8 -> data_ptr_align dm = 8 ->
     fn_ptr_size dm = 8 -> fn_ptr_align dm = 8 ->
     sizeof_ServerAdapter dm = 48 /\
     alignof_ServerAdapter dm = 8 /\
     offsets_ServerAdapter dm =
       [("router", 0); ("runtime_resources", 8); ("addRoute", 16);
        ("setStatus", 24); ("setHeader", 32); ("setBody", 40)] /\
     dll_abi_h dm = BuildOk) /\
  (forall dm : DataModel,
     dll_abi_h dm = BuildOk <->
     sizeof_ServerAdapter dm = 48 /\ alignof_ServerAdapter dm = 8) /\
  (forall dm : DataModel,
     dll_abi_h dm <> BuildOk ->
     dll_abi_h dm = BuildError "ServerAdapter size must be 48 bytes" \/
     dll_abi_h dm = BuildError "ServerAdapter alignment must be 8 bytes").
Proof.
  split; [|split].
  - intros [ds da fs fa]. cbn [data_ptr_size data_ptr_align fn_ptr_size fn_ptr_align].
    intros -> -> -> ->. repeat split.
  - intros dm. unfold dll_abi_h, static_assert.
    destruct (sizeof_ServerAdapter dm =? 48) eqn:Hs;
      destruct (alignof_ServerAdapter dm =? 8) eqn:Ha;
      rewrite ?Z.eqb_eq, ?Z.eqb_neq in *; split; intros H;
      try discriminate; try (split; assumption); try reflexivity;
      destruct H; contradiction.
  - intros dm. unfold dll_abi_h, static_assert.
    destruct (sizeof_ServerAdapter dm =? 48);
      destruct (alignof_ServerAdapter dm =? 8); intros H; auto.
    contradiction.
Qed.

(** The 64-bit data model the header names satisfies the theorem's
    premises; a 32-bit build of the same header is refused. *)
Lemma ServerAdapter_layout_frozen_witness :
  sizeof_ServerAdapter LP64 = 48 /\
  alignof_ServerAdapter LP64 = 8 /\
  offsets_ServerAdapter LP64 =
    [("router", 0); ("runtime_resources", 8); ("addRoute", 16);
     ("setStatus", 24); ("setHeader", 32); ("setBody", 40)] /\
  dll_abi_h LP64 = BuildOk.
Proof.
  apply (proj1 ServerAdapter_layout_frozen LP64); reflexivity.
Defined.

Example ILP32_build_refused :
  sizeof_ServerAdapter ILP32 = 24 /\
  dll_abi_h ILP32 = BuildError "ServerAdapter size must be 48 bytes".
Proof. split; reflexivity. Qed.

End AbiSpec.

(* ===================================================================== *)
(** ** Statements about the bridge                                        *)
(* ===================================================================== *)

Module BridgeSpec.
Import Abi Machine Bridge Trace Stubs Contract MachineFacts BridgeFacts.

(** The stubs on the test world. *)
Lemma bump_counter_leaves_adapters (w w' : World) (a : ptr) :
  a <> counter_addr ->
  bump_counter w = Some w' ->
  read_adapter w' a = read_adapter w a.
Proof.
  intros Hne H. unfold bump_counter in H.
  destruct (heap w !! counter_addr) as [[| |n]|]; try discriminate.
  injection H as <-. unfold read_adapter. cbn [heap].
  now rewrite lookup_insert_ne by congruence.
Qed.

Lemma stub_init_leaves_adapter (code : Z) :
  leaves_adapter_unchanged (stub_init code) adapter_addr.
Proof.
  intros w result w' H. unfold stub_init in H.
  destruct (bump_counter w) as [w1|] eqn:Hb; [|discriminate].
  injection H as _ <-.
  apply (bump_counter_leaves_adapters w w1); [discriminate|exact Hb].
Qed.

(** C1.  With a non-null init function pointer and a non-null adapter
    pointer (designating, as its type says, a [ServerAdapter]), when the
    init code returns [result] from the world the bridge enters it in,
    [dll_bridge_call_init] returns exactly [result]; the calls it made are
    one call of the init code, with the very pointer [adapter] it was
    given; and the world it leaves is the one the init code left, with one
    more trace line on the standard output. *)
Theorem call_init_present_calls_once
    (code : InitCode) (adapter : ptr) (sa : ServerAdapter) (s : State)
    (result : Z) (w' : World) :
  adapter <> NULL ->
  read_adapter (world s) adapter = Some sa ->
  code adapter (write Stdout (init_enter_text sa) (world s)) = Some (result, w') ->
  dll_bridge_call_init (Some code) adapter s =
  Some (result,
        mkState (write Stdout (init_leave_text result) w')
                (calls s ++ [CallInit adapter])).
Proof.
  intros Hnn Hsa Hcode.
  rewrite (call_init_run code adapter sa s Hnn Hsa).
  now rewrite Hcode.
Qed.

(** The unit test of the specification: a stub returning 1 is called
    once (the counter reads 1 afterwards) with the adapter's address. *)
Lemma call_init_present_calls_once_witness :
  exists s' : State,
    dll_bridge_call_init (Some (stub_init 1)) adapter_addr state0 = Some (1, s') /\
    calls s' = [CallInit adapter_addr] /\
    read_counter (world s') = Some 1 /\
    read_adapter (world s') adapter_addr = Some the_adapter.
Proof.
  eexists. split.
  - apply (call_init_present_calls_once
             (stub_init 1) adapter_addr the_adapter state0 1).
    + discriminate.
    + reflexivity.
    + reflexivity.
  - repeat split.
Defined.

(** C2.  When the init function pointer is null or the adapter pointer
    is null, [dll_bridge_call_init] returns a negative value (it is -1)
    and calls nothing: the record of calls is as before and the world
    differs only by the diagnostic written to the standard error. *)
Theorem call_init_absent_fails_without_call
    (init_fn : FeatureInitFn) (adapter : ptr) (s : State) :
  init_fn = None \/ adapter = NULL ->
  exists (result : Z) (text : string),
    dll_bridge_call_init init_fn adapter s =
      Some (result, mkState (write Stderr text (world s)) (calls s)) /\
    result < 0.
Proof.
  intros Habsent. exists (-1).
  destruct init_fn as [code|].
  - destruct Habsent as [Hfn | ->]; [discriminate|].
    exists adapter_null_text. split; [apply call_init_null_adapter|lia].
  - exists init_fn_null_text. split; [apply call_init_null_fn|lia].
Qed.

(** A present stub with an absent adapter is not called: the counter
    still reads 0. *)
Lemma call_init_absent_fails_without_call_witness :
  exists (result : Z) (text : string),
    dll_bridge_call_init (Some (stub_init 0)) NULL state0 =
      Some (result, mkState (write Stderr text world0) []) /\
    result < 0.
Proof.
  apply (call_init_absent_fails_without_call (Some (stub_init 0)) NULL state0).
  right. reflexivity.
Defined.

(** C3.  With a null version function pointer [dll_bridge_call_version]
    returns the string literal [unknown].  With a present one, whose code
    returns [v] (which, as the ABI requires of a version string, can be
    printed), it calls the code once and returns [v] itself; the
    characters [v] designates are in the final world what the plugin left
    there. *)
Theorem call_version_unknown_or_verbatim :
  (forall s : State,
     dll_bridge_call_version None s =
       Some (CharLiteral "unknown",
             mkState (write Stderr version_null_text (world s)) (calls s)) /\
     forall w : World, read_string w (CharLiteral "unknown") = Some "unknown") /\
  (forall (code : VersionCode) (s : State) (v : CharPtr) (w' : World) (shown : string),
     code (write Stdout version_enter_text (world s)) = Some (v, w') ->
     fmt_s w' v = Some shown ->
     exists s' : State,
       dll_bridge_call_version (Some code) s = Some (v, s') /\
       calls s' = (calls s ++ [CallVersion])%list /\
       world s' = write Stdout (version_leave_text shown) w' /\
       read_string (world s') v = read_string w' v).
Proof.
  split.
  - intros s. split; [apply call_version_null|reflexivity].
  - intros code s v w' shown Hcode Hshown.
    eexists. split.
    + rewrite call_version_run, Hcode, Hshown. reflexivity.
    + cbn [world calls]. split; [reflexivity|]. split; [reflexivity|].
      apply read_string_write.
Qed.

(** A stub that keeps its version string in plugin memory. *)
Lemma call_version_unknown_or_verbatim_witness :
  exists s' : State,
    dll_bridge_call_version (Some stub_version) state0 = Some (CharAt version_addr, s') /\
    calls s' = [CallVersion] /\
    read_counter (world s') = Some 1 /\
    read_string (world s') (CharAt version_addr) = Some "1.4.2".
Proof.
  destruct (proj2 call_version_unknown_or_verbatim stub_version state0
              (CharAt version_addr)
              (mkWorld (<[counter_addr := ObjInt 1]> (heap world0))
                       version_enter_text "")
              "1.4.2" eq_refl eq_refl)
    as (s' & Hrun & Hcalls & Hworld & Hread).
  exists s'. split; [exact Hrun|]. split; [exact Hcalls|].
  split.
  - rewrite Hworld. reflexivity.
  - rewrite Hread. reflexivity.
Defined.

(** C4.  With a null shutdown function pointer
    [dll_bridge_call_shutdown] returns normally, having called nothing:
    the record of calls is as before, and the world differs only by the
    diagnostic line on the standard error. *)
Theorem call_shutdown_absent_is_noop (s : State) :
  dll_bridge_call_shutdown None s =
    Some (tt, mkState (write Stderr shutdown_null_text (world s)) (calls s)) /\
  heap (write Stderr shutdown_null_text (world s)) = heap (world s) /\
  stdout (write Stderr shutdown_null_text (world s)) = stdout (world s).
Proof.
  split.
  - apply call_shutdown_null.
  - split; reflexivity.
Qed.

(** C5.  With a present shutdown function pointer whose code returns,
    [dll_bridge_call_shutdown] makes exactly one call, of that code, and
    returns no value (its result type is [unit]); the world it leaves is
    the one the shutdown code left. *)
Theorem call_shutdown_present_calls_once
    (code : ShutdownCode) (s : State) (w' : World) :
  code (write Stdout shutdown_enter_text (world s)) = Some w' ->
  dll_bridge_call_shutdown (Some code) s =
  Some (tt, mkState w' (calls s ++ [CallShutdown])).
Proof.
  intros Hcode. rewrite call_shutdown_run. now rewrite Hcode.
Qed.

(** The stub is called once: the counter reads 1 afterwards. *)
Lemma call_shutdown_present_calls_once_witness :
  exists s' : State,
    dll_bridge_call_shutdown (Some stub_shutdown) state0 = Some (tt, s') /\
    calls s' = [CallShutdown] /\
    read_counter (world s') = Some 1.
Proof.
  eexists. split.
  - apply (call_shutdown_present_calls_once stub_shutdown state0). reflexivity.
  - split; reflexivity.
Defined.

(** C8.  The value [dll_bridge_call_init] returns for a missing entry
    point or a missing adapter is exactly -1, and an init function that
    itself returns -1 makes the bridge return the same -1 with both
    arguments present: the returned integer does not tell the two
    failures apart. *)
Theorem init_sentinel_collides_with_plugin_failure
    (code : InitCode) (adapter : ptr) (sa : ServerAdapter) (s : State) (w' : World) :
  adapter <> NULL ->
  read_adapter (world s) adapter = Some sa ->
  code adapter (write Stdout (init_enter_text sa) (world s)) = Some (-1, w') ->
  fst <$> dll_bridge_call_init (Some code) adapter s = Some (-1) /\
  fst <$> dll_bridge_call_init None adapter s = Some (-1) /\
  fst <$> dll_bridge_call_init (Some code) NULL s = Some (-1).
Proof.
  intros Hnn Hsa Hcode. split; [|split].
  - rewrite (call_init_run code adapter sa s Hnn Hsa), Hcode. reflexivity.
  - rewrite call_init_null_fn. reflexivity.
  - rewrite call_init_null_adapter. reflexivity.
Qed.

(** The stub returning -1 is such an init function. *)
Lemma init_sentinel_collides_with_plugin_failure_witness :
  fst <$> dll_bridge_call_init (Some (stub_init (-1))) adapter_addr state0 = Some (-1) /\
  fst <$> dll_bridge_call_init None adapter_addr state0 = Some (-1) /\
  fst <$> dll_bridge_call_init (Some (stub_init (-1))) NULL state0 = Some (-1).
Proof.
  apply (init_sentinel_collides_with_plugin_failure
           (stub_init (-1)) adapter_addr the_adapter state0
           (mkWorld (<[counter_addr := ObjInt 1]> (heap world0))
                    (init_enter_text the_adapter) "")).
  - discriminate.
  - reflexivity.
  - reflexivity.
Defined.

(** C9.  The [unknown] fallback is for a null function pointer only.
    When a present version function returns a null pointer,
    [dll_bridge_call_version] returns that null pointer, which is not the
    [unknown] literal; its trace shows the null as [(null)]. *)
Theorem call_version_null_result_passed_through
    (code : VersionCode) (s : State) (w' : World) :
  code (write Stdout version_enter_text (world s)) = Some (CharNull, w') ->
  dll_bridge_call_version (Some code) s =
    Some (CharNull,
          mkState (write Stdout (version_leave_text "(null)") w')
                  (calls s ++ [CallVersion])) /\
  CharNull <> CharLiteral "unknown".
Proof.
  intros Hcode. split.
  - rewrite call_version_run, Hcode. reflexivity.
  - discriminate.
Qed.

Lemma call_version_null_result_passed_through_witness :
  dll_bridge_call_version (Some stub_version_null) state0 =
    Some (CharNull,
          mkState (write Stdout (version_leave_text "(null)")
                     (write Stdout version_enter_text world0))
                  [CallVersion]) /\
  CharNull <> CharLiteral "unknown".
Proof.
  apply (call_version_null_result_passed_through stub_version_null state0
           (write Stdout version_enter_text world0)).
  reflexivity.
Defined.

(** C10.  [dll_bridge_call_init] itself never writes through the
    adapter.  Whenever it returns, for an init function that leaves the
    aggregate unchanged (or for no init function at all), the aggregate
    [adapter] designates reads after the call exactly as it read before:
    the same [router], [runtime_resources], [addRoute], [setStatus],
    [setHeader] and [setBody]. *)
Theorem call_init_preserves_adapter
    (init_fn : FeatureInitFn) (adapter : ptr) (s s' : State) (result : Z) :
  (forall code : InitCode,
     init_fn = Some code -> leaves_adapter_unchanged code adapter) ->
  dll_bridge_call_init init_fn adapter s = Some (result, s') ->
  read_adapter (world s') adapter = read_adapter (world s) adapter.
Proof.
  intros Hleaves Hrun.
  destruct init_fn as [code|].
  - destruct (decide (adapter = NULL)) as [->|Hnn].
    + rewrite call_init_null_adapter in Hrun.
      replace s' with (mkState (write Stderr adapter_null_text (world s)) (calls s))
        by congruence.
      apply read_adapter_write.
    + destruct (read_adapter (world s) adapter) as [sa|] eqn:Hsa.
      * rewrite (call_init_run code adapter sa s Hnn Hsa) in Hrun.
        destruct (code adapter (write Stdout (init_enter_text sa) (world s)))
          as [[r w']|] eqn:Hcode; [|discriminate].
        replace s' with (mkState (write Stdout (init_leave_text r) w')
                                 (calls s ++ [CallInit adapter]))
          by congruence.
        cbn [world]. rewrite read_adapter_write.
        rewrite (Hleaves code eq_refl _ _ _ Hcode).
        now rewrite read_adapter_write.
      * now rewrite (call_init_dangling code adapter s Hnn Hsa) in Hrun.
  - rewrite call_init_null_fn in Hrun.
    replace s' with (mkState (write Stderr init_fn_null_text (world s)) (calls s))
      by congruence.
    apply read_adapter_write.
Qed.

(** The counting stub leaves the adapter alone, and after the call the
    six members read as before. *)
Lemma call_init_preserves_adapter_witness :
  exists s' : State,
    dll_bridge_call_init (Some (stub_init 0)) adapter_addr state0 = Some (0, s') /\
    read_adapter (world s') adapter_addr = Some the_adapter.
Proof.
  eexists. split.
  - reflexivity.
  - match goal with
    | |- read_adapter (world ?st) _ = _ =>
        apply (call_init_preserves_adapter
                 (Some (stub_init 0)) adapter_addr state0 st 0)
    end.
    + intros code Hcode. injection Hcode as <-. apply stub_init_leaves_adapter.
    + reflexivity.
Defined.

End BridgeSpec.

(* ===================================================================== *)
(** ** Every returning run of a wrapper, by cases                         *)
(* ===================================================================== *)

Module BridgeRuns.
Import Abi Machine Bridge Trace Contract MachineFacts BridgeFacts.

Lemma call_init_inv (init_fn : FeatureInitFn) (adapter : ptr) (s s' : State)
    (result : Z) :
  dll_bridge_call_init init_fn adapter s = Some (result, s') ->
  InitRun init_fn adapter s result s'.
Proof.
  intros Hrun. destruct init_fn as [code|].
  - destruct (decide (adapter = NULL)) as [->|Hnn].
    + rewrite call_init_null_adapter in Hrun.
      eapply InitRunNoAdapter; eauto; congruence.
    + destruct (read_adapter (world s) adapter) as [sa|] eqn:Hsa.
      * rewrite (call_init_run code adapter sa s Hnn Hsa) in Hrun.
        destruct (code adapter (write Stdout (init_enter_text sa) (world s)))
          as [[r w']|] eqn:Hcode; [|discriminate].
        assert (r = result) as -> by congruence.
        eapply InitRunCalled; eauto; congruence.
      * now rewrite (call_init_dangling code adapter s Hnn Hsa) in Hrun.
  - rewrite call_init_null_fn in Hrun.
    eapply InitRunNoFn; eauto; congruence.
Qed.

Lemma call_shutdown_inv (shutdown_fn : FeatureShutdownFn) (s s' : State) (u : unit) :
  dll_bridge_call_shutdown shutdown_fn s = Some (u, s') ->
  ShutdownRun shutdown_fn s s'.
Proof.
  intros Hrun. destruct shutdown_fn as [code|].
  - rewrite call_shutdown_run in Hrun.
    destruct (code (write Stdout shutdown_enter_text (world s))) as [w'|] eqn:Hcode;
      [|discriminate].
    eapply ShutdownRunCalled; eauto; congruence.
  - rewrite call_shutdown_null in Hrun.
    eapply ShutdownRunNoFn; eauto; congruence.
Qed.

Lemma call_version_inv (version_fn : FeatureVersionFn) (s s' : State) (v : CharPtr) :
  dll_bridge_call_version version_fn s = Some (v, s') ->
  VersionRun version_fn s v s'.
Proof.
  intros Hrun. destruct version_fn as [code|].
  - rewrite call_version_run in Hrun.
    destruct (code (write Stdout version_enter_text (world s)))
      as [[v0 w']|] eqn:Hcode; [|discriminate].
    destruct (fmt_s w' v0) as [shown|] eqn:Hshown; [|discriminate].
    assert (v0 = v) as -> by congruence.
    eapply VersionRunCalled; eauto; congruence.
  - rewrite call_version_null in Hrun.
    eapply VersionRunNoFn; eauto; congruence.
Qed.

End BridgeRuns.

(* ===================================================================== *)
(** ** Further properties of the ABI contract                             *)
(* ===================================================================== *)

Module AbiExtra.
Import Abi Contract.

Lemma align_up_exact (n a : Z) : 0 < a -> (a | n) -> align_up n a = n.
Proof.
  intros Ha [k ->]. unfold align_up.
  replace (k * a + a - 1) with ((a - 1) + k * a) by lia.
  rewrite Z.div_add by lia.
  rewrite (Z.div_small (a - 1) a) by lia. lia.
Qed.

Ltac divides_by_steps :=
  repeat first
    [ apply Z.divide_0_r
    | apply Z.divide_refl
    | apply Z.divide_add_r ].

(** X1.  The values of the [HttpMethod] enumerators are pairwise
    different and fill the range 0..6 without a gap: an [int method]
    crossing the boundary denotes one method when it lies in 0..6 and none
    otherwise. *)
Theorem HttpMethod_value_one_to_one_onto_0_6 :
  (forall m n : HttpMethod, HttpMethod_value m = HttpMethod_value n -> m = n) /\
  (forall z : Z, (exists m : HttpMethod, HttpMethod_value m = z) <-> 0 <= z <= 6).
Proof.
  split.
  - intros m n H. destruct m, n; simpl in H; try reflexivity; discriminate.
  - intros z. split.
    + intros [m <-]. destruct m; simpl; lia.
    + intros Hz.
      assert (z = 0 \/ z = 1 \/ z = 2 \/ z = 3 \/ z = 4 \/ z = 5 \/ z = 6)
        as Hcases by lia.
      destruct Hcases as [->|[->|[->|[->|[->|[->| ->]]]]]];
        [ exists HTTP_METHOD_GET | exists HTTP_METHOD_POST | exists HTTP_METHOD_PUT
        | exists HTTP_METHOD_PATCH | exists HTTP_METHOD_DELETE
        | exists HTTP_METHOD_HEAD | exists HTTP_METHOD_OPTIONS ];
        reflexivity.
Qed.

(** X2.  On a target whose pointers (data and function alike) have size
    [p] and are aligned to it, [ServerAdapter] is six pointers with no
    padding: its members lie at 0, p, ..., 5p, its size is 6p and its
    alignment p.  So the header's static assertions pass on such a target
    exactly when [p] is 8. *)
Theorem dll_abi_h_builds_iff_pointers_are_8_bytes (dm : DataModel) (p : Z) :
  0 < p ->
  natural_pointers dm p ->
  offsets_ServerAdapter dm =
    [("router", 0); ("runtime_resources", p); ("addRoute", 2 * p);
     ("setStatus", 3 * p); ("setHeader", 4 * p); ("setBody", 5 * p)] /\
  sizeof_ServerAdapter dm = 6 * p /\
  alignof_ServerAdapter dm = p /\
  (dll_abi_h dm = BuildOk <-> p = 8).
Proof.
  intros Hp (Hds & Hda & Hfs & Hfa).
  destruct dm as [ds da fs fa].
  cbn [data_ptr_size data_ptr_align fn_ptr_size fn_ptr_align] in *. subst.
  assert (Hoffsets :
    place_members (mkDataModel p p p p) ServerAdapter_members 0 =
    ([("router", 0); ("runtime_resources", p); ("addRoute", 2 * p);
      ("setStatus", 3 * p); ("setHeader", 4 * p); ("setBody", 5 * p)], 6 * p)).
  { unfold ServerAdapter_members.
    cbn [place_members alignof_member sizeof_member
         data_ptr_size data_ptr_align fn_ptr_size fn_ptr_align].
    rewrite !align_up_exact by (try exact Hp; divides_by_steps).
    repeat f_equal; lia. }
  assert (Halign : alignof_ServerAdapter (mkDataModel p p p p) = p).
  { unfold alignof_ServerAdapter, alignof_struct, ServerAdapter_members.
    cbn [fold_right alignof_member snd data_ptr_align fn_ptr_align]. lia. }
  assert (Hsize : sizeof_ServerAdapter (mkDataModel p p p p) = 6 * p).
  { unfold sizeof_ServerAdapter, sizeof_struct.
    fold (alignof_ServerAdapter (mkDataModel p p p p)).
    rewrite Hoffsets, Halign. cbn [snd].
    apply align_up_exact; [exact Hp|]. exists 6. reflexivity. }
  split; [|split; [|split]].
  - unfold offsets_ServerAdapter. now rewrite Hoffsets.
  - exact Hsize.
  - exact Halign.
  - unfold dll_abi_h, static_assert. rewrite Hsize, Halign.
    destruct (6 * p =? 48) eqn:H48; destruct (p =? 8) eqn:H8;
      rewrite ?Z.eqb_eq, ?Z.eqb_neq in *; split; intros H;
      try reflexivity; try discriminate; lia.
Qed.

(** The 64-bit model builds; its members lie at 0, 8, ..., 40. *)
Lemma dll_abi_h_builds_iff_pointers_are_8_bytes_witness :
  offsets_ServerAdapter LP64 =
    [("router", 0); ("runtime_resources", 8); ("addRoute", 2 * 8);
     ("setStatus", 3 * 8); ("setHeader", 4 * 8); ("setBody", 5 * 8)] /\
  sizeof_ServerAdapter LP64 = 6 * 8 /\
  alignof_ServerAdapter LP64 = 8 /\
  (dll_abi_h LP64 = BuildOk <-> 8 = 8).
Proof.
  apply (dll_abi_h_builds_iff_pointers_are_8_bytes LP64 8).
  - lia.
  - repeat split.
Defined.

End AbiExtra.

(* ===================================================================== *)
(** ** Further properties of the bridge                                   *)
(* ===================================================================== *)

Module BridgeExtra.
Import Abi Machine Bridge Trace Stubs Contract MachineFacts BridgeFacts BridgeRuns.





(** X5.  The trace of [dll_bridge_call_init] brackets what the plugin
    prints: for init code that appends [out] to the standard output, the
    standard output after the call is what it was, then the three lines
    announcing the call, then [out], then the line with the result; the
    standard error is untouched. *)
Theorem call_init_trace_brackets_plugin_output
    (code : InitCode) (out : string) (adapter : ptr) (s s' : State) (result : Z) :
  init_prints code out ->
  adapter <> NULL ->
  dll_bridge_call_init (Some code) adapter s = Some (result, s') ->
  exists sa : ServerAdapter,
    read_adapter (world s) adapter = Some sa /\
    stdout (world s') =
      stdout (world s) ++ init_enter_text sa ++ out ++ init_leave_text result /\
    stderr (world s') = stderr (world s).
Proof.
  intros Hprints Hnn Hrun.
  destruct (call_init_inv _ _ _ _ _ Hrun)
    as [Hfn _ _ | code' _ Hnull _ _ | code' sa w' Hfn _ Hsa Hcode Hs'].
  - discriminate.
  - contradiction.
  - assert (code' = code) as -> by congruence.
    destruct (Hprints _ _ _ _ Hcode) as [Hout Herr].
    exists sa. split; [exact Hsa|]. subst s'. cbn [world stdout stderr write].
    rewrite Hout, Herr. cbn [stdout stderr write].
    split; [|reflexivity].
    now rewrite !append_assoc.
Qed.

Lemma stub_init_logging_prints (code : Z) :
  init_prints (stub_init_logging code) plugin_hello.
Proof.
  intros a w result w' H. unfold stub_init_logging in H.
  injection H as _ <-. split; reflexivity.
Qed.

Lemma call_init_trace_brackets_plugin_output_witness :
  exists sa : ServerAdapter,
    read_adapter (world state0) adapter_addr = Some sa /\
    stdout (write Stdout (init_leave_text 7)
              (write Stdout plugin_hello
                 (write Stdout (init_enter_text the_adapter) world0))) =
      stdout (world state0) ++ init_enter_text sa ++ plugin_hello ++ init_leave_text 7 /\
    stderr (write Stdout (init_leave_text 7)
              (write Stdout plugin_hello
                 (write Stdout (init_enter_text the_adapter) world0))) =
      stderr (world state0).
Proof.
  apply (call_init_trace_brackets_plugin_output
           (stub_init_logging 7) plugin_hello adapter_addr state0
           (mkState
              (write Stdout (init_leave_text 7)
                 (write Stdout plugin_hello
                    (write Stdout (init_enter_text the_adapter) world0)))
              [CallInit adapter_addr])
           7).
  - apply stub_init_logging_prints.
  - discriminate.
  - reflexivity.
Defined.

(** X6.  The bridge itself writes to no object in memory.  Whenever a
    wrapper returns, and the plugin code it was given (if any) leaves
    memory as it found it, memory after the call is what it was before:
    the wrappers only print. *)
Theorem bridge_never_writes_memory :
  (forall (init_fn : FeatureInitFn) (adapter : ptr) (s s' : State) (result : Z),
     (forall code : InitCode, init_fn = Some code -> init_leaves_heap code) ->
     dll_bridge_call_init init_fn adapter s = Some (result, s') ->
     heap (world s') = heap (world s)) /\
  (forall (shutdown_fn : FeatureShutdownFn) (s s' : State),
     (forall code : ShutdownCode, shutdown_fn = Some code -> shutdown_leaves_heap code) ->
     dll_bridge_call_shutdown shutdown_fn s = Some (tt, s') ->
     heap (world s') = heap (world s)) /\
  (forall (version_fn : FeatureVersionFn) (s s' : State) (v : CharPtr),
     (forall code : VersionCode, version_fn = Some code -> version_leaves_heap code) ->
     dll_bridge_call_version version_fn s = Some (v, s') ->
     heap (world s') = heap (world s)).
Proof.
  split; [|split].
  - intros init_fn adapter s s' result Hleaves Hrun.
    destruct (call_init_inv _ _ _ _ _ Hrun)
      as [_ _ -> | code _ _ _ -> | code sa w' Hfn _ _ Hcode ->];
      cbn [world]; rewrite heap_write; [reflexivity|reflexivity|].
    rewrite (Hleaves code Hfn _ _ _ _ Hcode). apply heap_write.
  - intros shutdown_fn s s' Hleaves Hrun.
    destruct (call_shutdown_inv _ _ _ _ Hrun) as [_ -> | code w' Hfn Hcode ->];
      cbn [world].
    + apply heap_write.
    + rewrite (Hleaves code Hfn _ _ Hcode). apply heap_write.
  - intros version_fn s s' v Hleaves Hrun.
    destruct (call_version_inv _ _ _ _ Hrun)
      as [_ _ -> | code w' shown Hfn Hcode _ ->];
      cbn [world]; rewrite heap_write; [reflexivity|].
    rewrite (Hleaves code Hfn _ _ _ Hcode). apply heap_write.
Qed.

Lemma stub_shutdown_logging_leaves_heap : shutdown_leaves_heap stub_shutdown_logging.
Proof.
  intros w w' H. unfold stub_shutdown_logging in H. injection H as <-.
  reflexivity.
Qed.

(** The logging shutdown stub prints and changes nothing in memory. *)
Lemma bridge_never_writes_memory_witness :
  exists s' : State,
    dll_bridge_call_shutdown (Some stub_shutdown_logging) state0 = Some (tt, s') /\
    stdout (world s') = shutdown_enter_text ++ plugin_bye /\
    heap (world s') = heap (world state0).
Proof.
  eexists. split; [reflexivity|]. split; [reflexivity|].
  match goal with
  | |- heap (world ?st) = _ =>
      apply (proj1 (proj2 bridge_never_writes_memory)
               (Some stub_shutdown_logging) state0 st)
  end.
  - intros code Hcode. injection Hcode as <-.
    apply stub_shutdown_logging_leaves_heap.
  - reflexivity.
Defined.



(** X8.  A wrapper enters the plugin at most once per call, only
    through the entry point it was given, and only when nothing is
    missing.  Whenever [dll_bridge_call_init] returns, either a pointer
    was null and no call was made, or both were present and exactly one
    call of the init code, with [adapter], was added; likewise for
    shutdown and version with their one pointer. *)
Theorem bridge_calls_plugin_at_most_once :
  (forall (init_fn : FeatureInitFn) (adapter : ptr) (s s' : State) (result : Z),
     dll_bridge_call_init init_fn adapter s = Some (result, s') ->
     ((init_fn = None \/ adapter = NULL) /\ calls s' = calls s) \/
     (init_fn <> None /\ adapter <> NULL /\
      calls s' = (calls s ++ [CallInit adapter])%list)) /\
  (forall (shutdown_fn : FeatureShutdownFn) (s s' : State),
     dll_bridge_call_shutdown shutdown_fn s = Some (tt, s') ->
     (shutdown_fn = None /\ calls s' = calls s) \/
     (shutdown_fn <> None /\ calls s' = (calls s ++ [CallShutdown])%list)) /\
  (forall (version_fn : FeatureVersionFn) (s s' : State) (v : CharPtr),
     dll_bridge_call_version version_fn s = Some (v, s') ->
     (version_fn = None /\ calls s' = calls s) \/
     (version_fn <> None /\ calls s' = (calls s ++ [CallVersion])%list)).
Proof.
  split; [|split].
  - intros init_fn adapter s s' result Hrun.
    destruct (call_init_inv _ _ _ _ _ Hrun)
      as [Hfn _ -> | code _ Hnull _ -> | code sa w' Hfn Hnn _ _ ->].
    + left. split; [left; exact Hfn|reflexivity].
    + left. split; [right; exact Hnull|reflexivity].
    + right. split; [congruence|]. split; [exact Hnn|reflexivity].
  - intros shutdown_fn s s' Hrun.
    destruct (call_shutdown_inv _ _ _ _ Hrun) as [Hfn -> | code w' Hfn _ ->].
    + left. split; [exact Hfn|reflexivity].
    + right. split; [congruence|reflexivity].
  - intros version_fn s s' v Hrun.
    destruct (call_version_inv _ _ _ _ Hrun)
      as [Hfn _ -> | code w' shown Hfn _ _ ->].
    + left. split; [exact Hfn|reflexivity].
    + right. split; [congruence|reflexivity].
Qed.

(** The counting stub: one call recorded, the counter at 1. *)
Lemma bridge_calls_plugin_at_most_once_witness :
  exists s' : State,
    dll_bridge_call_init (Some (stub_init 3)) adapter_addr state0 = Some (3, s') /\
    read_counter (world s') = Some 1 /\
    (((Some (stub_init 3) = None \/ adapter_addr = NULL) /\ calls s' = calls state0) \/
     (Some (stub_init 3) <> None /\ adapter_addr <> NULL /\
      calls s' = (calls state0 ++ [CallInit adapter_addr])%list)).
Proof.
  eexists. split; [reflexivity|]. split; [reflexivity|].
  match goal with
  | |- (_ /\ calls ?st = _) \/ _ =>
      apply (proj1 bridge_calls_plugin_at_most_once
               (Some (stub_init 3)) adapter_addr state0 st 3)
  end.
  reflexivity.
Defined.

End BridgeExtra.
